(** * Deterministic display from serde (src/src/serialization.rs)

    Shallow embedding of the [impl_deterministic_display_from_serde!] macro:
    the [Display::fmt] it generates serialises the value with
    [serde_json::to_string], strips surrounding quotes, strips surrounding
    braces and replaces special characters.

    Rust strings are modelled as Stdlib [string]s, i.e. as their UTF-8 byte
    sequences.  Every character the code inspects or replaces (backslash,
    double quote, colon, space and the two braces) is ASCII, and in UTF-8 an ASCII byte never occurs
    inside a multi-byte character, so byte-wise [starts_with], [ends_with]
    and [replace] agree with Rust's char-wise ones.  A panic is modelled by
    [None]. *)

From Stdlib Require Import Ascii String List ZArith Lia Bool.
From Stdlib Require Import Numbers.DecimalString.
Import ListNotations.
Open Scope string_scope.

(** ** Characters used by the code *)

Definition dquote : ascii := "034"%char.
Definition backslash : ascii := "092"%char.
Definition colon : ascii := "058"%char.
Definition space : ascii := "032"%char.
Definition lbrace : ascii := "123"%char.
Definition rbrace : ascii := "125"%char.
Definition lbracket : ascii := "091"%char.
Definition rbracket : ascii := "093"%char.
Definition comma : ascii := "044"%char.
Definition tilde : ascii := "126"%char.
Definition underscore : ascii := "095"%char.
Definition hyphen : ascii := "045"%char.

(** One-character string. *)
Definition chr (c : ascii) : string := String c EmptyString.

(** ** Rust's [Result] and the [std::str] operations used by the macro *)

Inductive result (A E : Type) : Type :=
| Ok (a : A)
| Err (e : E).
Arguments Ok {A E} a.
Arguments Err {A E} e.

(** [str::starts_with(c)] for a char pattern. *)
Definition starts_with (c : ascii) (s : string) : bool :=
  match s with
  | EmptyString => false
  | String x _ => Ascii.eqb x c
  end.

(** [str::ends_with(c)] for a char pattern. *)
Fixpoint ends_with (c : ascii) (s : string) : bool :=
  match s with
  | EmptyString => false
  | String x EmptyString => Ascii.eqb x c
  | String _ r => ends_with c r
  end.

(** [&s[a..b]]: panics unless [a <= b <= s.len()].  (The char-boundary
    check of Rust never fires at the indices used below: index [1] follows
    an ASCII first byte and [s.len() - 1] precedes an ASCII last byte.) *)
Definition slice (s : string) (a b : nat) : option string :=
  if Nat.leb a b && Nat.leb b (String.length s) then Some (substring a (b - a) s)
  else None.

(** [str::replace(c, r)] with a char pattern [c] and a replacement [r]. *)
Fixpoint replace (c : ascii) (r : string) (s : string) : string :=
  match s with
  | EmptyString => EmptyString
  | String x s' =>
      if Ascii.eqb x c then r ++ replace c r s' else String x (replace c r s')
  end.

(** ** The three closures of the macro (lines 16-38) *)

(** If string, remove surrounding quotes. *)
Definition remove_surrounding_quotes (s : string) : option string :=
  if starts_with dquote s && ends_with dquote s
  then slice s 1 (String.length s - 1)
  else Some s.

(** If map, remove surrounding braces. *)
Definition remove_surrounding_braces (s : string) : option string :=
  if starts_with lbrace s && ends_with rbrace s
  then slice s 1 (String.length s - 1)
  else Some s.

(** Replace special characters. *)
Definition replace_special_characters (s : string) : string :=
  replace space (chr hyphen)
    (replace colon (chr underscore)
       (replace dquote EmptyString
          (replace backslash (chr tilde) s))).

(** The two strips, in the order of the [.map] chain. *)
Definition strip_surroundings (s : string) : option string :=
  match remove_surrounding_quotes s with
  | Some s1 => remove_surrounding_braces s1
  | None => None
  end.

(** The whole post-processing of the serialised string. *)
Definition cleanup (s : string) : option string :=
  match strip_surroundings s with
  | Some s2 => Some (replace_special_characters s2)
  | None => None
  end.

(** ** The generated [Display::fmt] *)

(** [std::fmt::Error]. *)
Inductive fmt_Error : Type := FmtError.

Section Display.
(** [$type], its [stringify!]-ed name, [serde_json::to_string] at that
    type and the [Debug] rendering of [serde_json::Error]. *)
Variables (T E : Type).
Variable type_name : string.
Variable to_string : T -> result string E.
Variable debug : E -> string.

Definition unhandled_message (e : E) : string :=
  "UNHANDLED SERIALIZATION ERROR" ++ chr "010"%char ++ type_name
  ++ ".to_string() failed." ++ chr "010"%char ++ debug e.

(** [fmt(&self, f)]: the lines written to stderr by [eprintln!], and the
    outcome: [None] for a panic, otherwise the [fmt::Result], carrying on
    success the text written to the formatter [f]. *)
Definition fmt (self : T) : list string * option (result string fmt_Error) :=
  match to_string self with
  | Ok s =>
      match cleanup s with
      | Some d => ([], Some (Ok d))
      | None => ([], None)
      end
  | Err e => ([unhandled_message e], Some (Err FmtError))
  end.
End Display.

Arguments fmt {T E} type_name to_string debug self.

(** [ToString::to_string] through [Display]: the standard library panics
    when [fmt] returns [Err], so both a panic and an error give [None]. *)
Definition display_to_string {T} (display : T -> list string * option (result string fmt_Error))
    (v : T) : option string :=
  match snd (display v) with
  | Some (Ok d) => Some d
  | _ => None
  end.

(** ** The external collaborator: serde's data model and [serde_json::to_string]

    The serde data model of the values the tests use, and the compact
    writer of serde_json ([format_escaped_str], [itoa] for integers, the
    [MapKeySerializer] for map keys). *)

Set Warnings "-register-all".
Inductive serde_value : Type :=
| SUnit
| SBool (b : bool)
| SInt (z : Z)
| SStr (s : string)
| SUnitVariant (variant : string)
| SNewtypeStruct (inner : serde_value)
| SNewtypeVariant (variant : string) (inner : serde_value)
| SSeq (elems : list serde_value)
| SMap (entries : list (serde_value * serde_value))
| SStructVariant (variant : string) (fields : list (string * serde_value)).

(** The one [serde_json::Error] kind this model can raise. *)
Inductive json_error : Type := KeyMustBeAString.

(** [Debug] of that error. *)
Definition debug_json_error (e : json_error) : string :=
  match e with
  | KeyMustBeAString =>
      "Error(" ++ chr dquote ++ "key must be a string" ++ chr dquote
      ++ ", line: 0, column: 0)"
  end.

Definition map_ok {A B E} (f : A -> B) (r : result A E) : result B E :=
  match r with
  | Ok a => Ok (f a)
  | Err e => Err e
  end.

(** Stops at the first error, as the writer does. *)
Fixpoint collect {A E} (l : list (result A E)) : result (list A) E :=
  match l with
  | [] => Ok []
  | Ok a :: l' => map_ok (cons a) (collect l')
  | Err e :: _ => Err e
  end.

Definition join (l : list string) : string := String.concat (chr comma) l.

(** Decimal rendering of an integer, with a leading minus sign. *)
Definition itoa (z : Z) : string := NilEmpty.string_of_int (Z.to_int z).

(** Lower-case hexadecimal digit. *)
Definition hex_digit (n : nat) : ascii :=
  ascii_of_nat (if Nat.ltb n 10 then 48 + n else 87 + n).

(** serde_json's [ESCAPE] table: quote, backslash and control characters. *)
Definition escape_char (c : ascii) : string :=
  let n := nat_of_ascii c in
  if Ascii.eqb c dquote then String backslash (chr dquote)
  else if Ascii.eqb c backslash then String backslash (chr backslash)
  else if Nat.eqb n 8 then String backslash (chr "b"%char)
  else if Nat.eqb n 9 then String backslash (chr "t"%char)
  else if Nat.eqb n 10 then String backslash (chr "n"%char)
  else if Nat.eqb n 12 then String backslash (chr "f"%char)
  else if Nat.eqb n 13 then String backslash (chr "r"%char)
  else if Nat.ltb n 32 then
    String backslash ("u00" ++ String (hex_digit (n / 16)) (chr (hex_digit (n mod 16))))
  else chr c.

Fixpoint escape_str (s : string) : string :=
  match s with
  | EmptyString => EmptyString
  | String c s' => escape_char c ++ escape_str s'
  end.

Definition format_escaped_str (s : string) : string :=
  chr dquote ++ escape_str s ++ chr dquote.

(** [MapKeySerializer]: strings, unit variants, integers and booleans
    (the last two quoted) are accepted, newtype structs are looked through;
    any other key is an error. *)
Fixpoint serialize_key (k : serde_value) : result string json_error :=
  match k with
  | SStr s => Ok (format_escaped_str s)
  | SUnitVariant v => Ok (format_escaped_str v)
  | SInt z => Ok (chr dquote ++ itoa z ++ chr dquote)
  | SBool b => Ok (chr dquote ++ (if b then "true" else "false") ++ chr dquote)
  | SNewtypeStruct k' => serialize_key k'
  | _ => Err KeyMustBeAString
  end.

Definition entry (k v : result string json_error) : result string json_error :=
  match k with
  | Ok ks => map_ok (fun vs => ks ++ chr colon ++ vs) v
  | Err e => Err e
  end.

Fixpoint serde_json_to_string (v : serde_value) : result string json_error :=
  match v with
  | SUnit => Ok "null"
  | SBool b => Ok (if b then "true" else "false")
  | SInt z => Ok (itoa z)
  | SStr s => Ok (format_escaped_str s)
  | SUnitVariant var => Ok (format_escaped_str var)
  | SNewtypeStruct x => serde_json_to_string x
  | SNewtypeVariant var x =>
      map_ok (fun j => chr lbrace ++ format_escaped_str var ++ chr colon ++ j ++ chr rbrace)
        (serde_json_to_string x)
  | SSeq l =>
      map_ok (fun js => chr lbracket ++ join js ++ chr rbracket)
        (collect (map serde_json_to_string l))
  | SMap l =>
      map_ok (fun js => chr lbrace ++ join js ++ chr rbrace)
        (collect (map (fun kv => entry (serialize_key (fst kv)) (serde_json_to_string (snd kv))) l))
  | SStructVariant var fields =>
      map_ok (fun js => chr lbrace ++ format_escaped_str var ++ chr colon
                        ++ chr lbrace ++ join js ++ chr rbrace ++ chr rbrace)
        (collect (map (fun fx => entry (Ok (format_escaped_str (fst fx)))
                                       (serde_json_to_string (snd fx))) fields))
  end.

(** ** The types of the test module, with their derived [Serialize] *)

(** [struct ProductCode(String)] *)
Inductive ProductCode : Type := MkProductCode (s : string).

Definition serialize_ProductCode (p : ProductCode) : serde_value :=
  match p with MkProductCode s => SNewtypeStruct (SStr s) end.

(** [#[serde(rename_all = lowercase)] enum SimpleEnum], [ValueTwo] renamed. *)
Inductive SimpleEnum : Type := ValueOne | ValueTwo | ValueThree.

Definition serialize_SimpleEnum (e : SimpleEnum) : serde_value :=
  match e with
  | ValueOne => SUnitVariant "valueone"
  | ValueTwo => SUnitVariant "renamed_value"
  | ValueThree => SUnitVariant "valuethree"
  end.

(** [enum ComplexEnum] with the [id : i32] field as a [Z]. *)
Inductive ComplexEnum : Type :=
| VariantA
| VariantB (id : Z) (name : string)
| VariantC (v : list string).

Definition serialize_ComplexEnum (e : ComplexEnum) : serde_value :=
  match e with
  | VariantA => SUnitVariant "VariantA"
  | VariantB id name => SStructVariant "VariantB" [("id", SInt id); ("name", SStr name)]
  | VariantC v => SNewtypeVariant "VariantC" (SSeq (map SStr v))
  end.

(** The three [impl_deterministic_display_from_serde!] invocations. *)
Definition fmt_ProductCode :=
  fmt "ProductCode" (fun p => serde_json_to_string (serialize_ProductCode p)) debug_json_error.
Definition fmt_SimpleEnum :=
  fmt "SimpleEnum" (fun e => serde_json_to_string (serialize_SimpleEnum e)) debug_json_error.
Definition fmt_ComplexEnum :=
  fmt "ComplexEnum" (fun e => serde_json_to_string (serialize_ComplexEnum e)) debug_json_error.

(** The Rust string [ex], double quote, [ample]. *)
Definition ex_quote_ample : string := "ex" ++ String dquote "ample".

(** The test module, replayed. *)
Example test_display_removes_surrounding_quotes_struct :
  display_to_string fmt_ProductCode (MkProductCode "example") = Some "example".
Proof. vm_compute. reflexivity. Qed.
Example test_display_preserves_internal_escaped_quotes_struct :
  display_to_string fmt_ProductCode (MkProductCode ex_quote_ample) = Some "ex~ample".
Proof. vm_compute. reflexivity. Qed.
Example test_display_handles_empty_string_struct :
  display_to_string fmt_ProductCode (MkProductCode "") = Some "".
Proof. vm_compute. reflexivity. Qed.
Example test_display_simple_enum :
  display_to_string fmt_SimpleEnum ValueOne = Some "valueone" /\
  display_to_string fmt_SimpleEnum ValueTwo = Some "renamed_value" /\
  display_to_string fmt_SimpleEnum ValueThree = Some "valuethree".
Proof. vm_compute. repeat split. Qed.
Example test_display_complex_enum :
  display_to_string fmt_ComplexEnum VariantA = Some "VariantA" /\
  display_to_string fmt_ComplexEnum (VariantB 42 "test") = Some "VariantB_{id_42,name_test}" /\
  display_to_string fmt_ComplexEnum (VariantC ["one"; "two"]) = Some "VariantC_[one,two]".
Proof. vm_compute. repeat split. Qed.
Example test_display_handles_special_characters_struct :
  display_to_string fmt_ProductCode
    (MkProductCode ("text with " ++ chr "010"%char ++ " newlines and " ++ chr "009"%char ++ " tabs"))
  = Some "text-with-~n-newlines-and-~t-tabs".
Proof. vm_compute. reflexivity. Qed.

(** ** Auxiliary predicates and lemmas *)

(** [s.contains(c)]. *)
Fixpoint contains (c : ascii) (s : string) : bool :=
  match s with
  | EmptyString => false
  | String x s' => Ascii.eqb x c || contains c s'
  end.

(** None of the four characters the substitution targets occurs. *)
Definition no_special_characters (s : string) : Prop :=
  contains backslash s = false /\ contains dquote s = false /\
  contains colon s = false /\ contains space s = false.

(** The text between the first and the last byte. *)
Definition inner (s : string) : string := substring 1 (String.length s - 2) s.

(** Number of occurrences of [c] in [s]. *)
Fixpoint count_char (c : ascii) (s : string) : nat :=
  match s with
  | EmptyString => 0
  | String x s' => (if Ascii.eqb x c then 1 else 0) + count_char c s'
  end.

(** A byte that serde_json writes as itself and the substitution keeps:
    printable, and none of backslash, double quote, colon, space. *)
Definition plain_char (c : ascii) : bool :=
  Nat.leb 32 (nat_of_ascii c) &&
  negb (Ascii.eqb c dquote || Ascii.eqb c backslash || Ascii.eqb c colon || Ascii.eqb c space).

Fixpoint plain (s : string) : bool :=
  match s with
  | EmptyString => true
  | String c s' => plain_char c && plain s'
  end.

Lemma contains_app : forall c s t,
  contains c (s ++ t) = contains c s || contains c t.
Proof.
  intros c s t; induction s as [|x s IH]; simpl; [reflexivity|].
  rewrite IH, orb_assoc; reflexivity.
Qed.

Lemma replace_removes : forall c r s,
  contains c r = false -> contains c (replace c r s) = false.
Proof.
  intros c r s Hr; induction s as [|x s IH]; simpl; [reflexivity|].
  destruct (Ascii.eqb x c) eqn:Hx.
  - rewrite contains_app, Hr, IH; reflexivity.
  - simpl; rewrite Hx, IH; reflexivity.
Qed.

Lemma replace_keeps_absent : forall c r d s,
  contains d r = false -> contains d s = false -> contains d (replace c r s) = false.
Proof.
  intros c r d s Hr; induction s as [|x s IH]; simpl; [reflexivity|].
  intros Hs; apply orb_false_iff in Hs as [Hx Hs].
  destruct (Ascii.eqb x c).
  - rewrite contains_app, Hr, IH by exact Hs; reflexivity.
  - simpl; rewrite Hx, IH by exact Hs; reflexivity.
Qed.

Lemma replace_special_characters_clean : forall s,
  no_special_characters (replace_special_characters s).
Proof.
  intro s; unfold no_special_characters, replace_special_characters.
  repeat split;
    repeat first
      [ apply replace_removes; reflexivity
      | apply replace_keeps_absent; [reflexivity|] ].
Qed.

Lemma ends_with_app_chr : forall c s, ends_with c (s ++ chr c) = true.
Proof.
  intros c s; induction s as [|x s IH].
  - simpl; apply Ascii.eqb_refl.
  - simpl; destruct (s ++ chr c) as [|y u] eqn:E.
    + destruct s; discriminate.
    + exact IH.
Qed.

Lemma length_app_chr : forall s c, String.length (s ++ chr c) = S (String.length s).
Proof.
  intros s c; induction s as [|x s IH]; simpl; [reflexivity|]; rewrite IH; reflexivity.
Qed.

Lemma substring_prefix : forall s t, substring 0 (String.length s) (s ++ t) = s.
Proof.
  intros s t; induction s as [|x s IH]; simpl.
  - destruct t; reflexivity.
  - rewrite IH; reflexivity.
Qed.

(** Stripping a byte from each end of [c] ++ [t] ++ [d]. *)
Lemma slice_wrapped : forall c d t,
  slice (String c (t ++ chr d)) 1 (String.length (String c (t ++ chr d)) - 1) = Some t.
Proof.
  intros c d t; unfold slice; cbn [String.length]; rewrite length_app_chr.
  replace (S (S (String.length t)) - 1) with (S (String.length t)) by lia.
  rewrite (proj2 (Nat.leb_le 1 _)) by lia.
  rewrite (proj2 (Nat.leb_le (S (String.length t)) _)) by lia.
  replace (S (String.length t) - 1) with (String.length t) by lia.
  cbn [andb substring]; rewrite substring_prefix; reflexivity.
Qed.

Lemma ends_with_shape : forall d u,
  ends_with d u = true -> exists w, u = w ++ chr d.
Proof.
  intro d; induction u as [|a u IHu]; intro Hu; [discriminate|].
  destruct u as [|b u].
  - simpl in Hu; apply Ascii.eqb_eq in Hu; subst a; exists EmptyString; reflexivity.
  - destruct (IHu Hu) as [w Hw]; exists (String a w); rewrite Hw; reflexivity.
Qed.

(** A string that starts with [c] and ends with a different [d] has at least
    two bytes, and is [c] ++ its inner part ++ [d]. *)
Lemma wrapped_shape : forall c d s,
  c <> d -> starts_with c s && ends_with d s = true ->
  exists t, s = String c (t ++ chr d).
Proof.
  intros c d s Hcd H; destruct s as [|x s]; [discriminate|].
  apply andb_true_iff in H as [Hx He]; simpl in Hx; apply Ascii.eqb_eq in Hx; subst x.
  destruct s as [|y s].
  - simpl in He; apply Ascii.eqb_eq in He; contradiction.
  - destruct (ends_with_shape d (String y s) He) as [w Hw].
    exists w; rewrite Hw; reflexivity.
Qed.

Lemma inner_wrapped : forall c d t, inner (String c (t ++ chr d)) = t.
Proof.
  intros c d t; unfold inner; cbn [String.length]; rewrite length_app_chr.
  replace (S (S (String.length t)) - 2) with (String.length t) by lia.
  cbn [substring]; apply substring_prefix.
Qed.

Lemma remove_surrounding_quotes_wrapped : forall t,
  remove_surrounding_quotes (String dquote (t ++ chr dquote)) = Some t.
Proof.
  intro t; unfold remove_surrounding_quotes.
  replace (starts_with dquote (String dquote (t ++ chr dquote))) with true by reflexivity.
  rewrite (ends_with_app_chr dquote (String dquote t)
    : ends_with dquote (String dquote (t ++ chr dquote)) = true).
  apply slice_wrapped.
Qed.

Lemma remove_surrounding_braces_wrapped : forall t,
  remove_surrounding_braces (String lbrace (t ++ chr rbrace)) = Some t.
Proof.
  intro t; unfold remove_surrounding_braces.
  replace (starts_with lbrace (String lbrace (t ++ chr rbrace))) with true by reflexivity.
  rewrite (ends_with_app_chr rbrace (String lbrace t)
    : ends_with rbrace (String lbrace (t ++ chr rbrace)) = true).
  apply slice_wrapped.
Qed.

(** The brace strip never panics. *)
Lemma remove_surrounding_braces_total : forall s,
  exists t, remove_surrounding_braces s = Some t.
Proof.
  intro s; destruct (starts_with lbrace s && ends_with rbrace s) eqn:H.
  - destruct (wrapped_shape lbrace rbrace s ltac:(discriminate) H) as [t ->].
    exists t; apply remove_surrounding_braces_wrapped.
  - exists s; unfold remove_surrounding_braces; rewrite H; reflexivity.
Qed.

(** The quote strip panics on the lone double quote only. *)
Lemma remove_surrounding_quotes_cases : forall s,
  s = chr dquote \/ exists t, remove_surrounding_quotes s = Some t.
Proof.
  intro s; destruct (starts_with dquote s && ends_with dquote s) eqn:H.
  - destruct s as [|x s]; [discriminate|].
    apply andb_true_iff in H as [Hx He]; simpl in Hx; apply Ascii.eqb_eq in Hx; subst x.
    destruct s as [|y s]; [left; reflexivity|right].
    destruct (ends_with_shape dquote (String y s) He) as [w Hw].
    rewrite Hw; exists w; apply remove_surrounding_quotes_wrapped.
  - right; exists s; unfold remove_surrounding_quotes; rewrite H; reflexivity.
Qed.

Lemma itoa_not_lone_quote : forall z, itoa z <> chr dquote.
Proof.
  intro z; unfold itoa, NilEmpty.string_of_int.
  destruct (Z.to_int z) as [d|d]; [destruct d|]; simpl; discriminate.
Qed.

Lemma format_escaped_str_not_lone_quote : forall s, format_escaped_str s <> chr dquote.
Proof.
  intros s H; unfold format_escaped_str in H; simpl in H; injection H as H.
  destruct (escape_str s ++ chr dquote) eqn:E; [|discriminate].
  destruct (escape_str s); discriminate.
Qed.

(** serde_json never writes a lone double quote. *)
Lemma serde_json_not_lone_quote : forall v j,
  serde_json_to_string v = Ok j -> j <> chr dquote.
Proof.
  induction v; simpl; intros j Hj.
  - injection Hj as <-; discriminate.
  - injection Hj as <-; destruct b; discriminate.
  - injection Hj as <-; apply itoa_not_lone_quote.
  - injection Hj as <-; apply format_escaped_str_not_lone_quote.
  - injection Hj as <-; apply format_escaped_str_not_lone_quote.
  - apply IHv; exact Hj.
  - destruct (serde_json_to_string v); simpl in Hj; [|discriminate].
    injection Hj as <-; discriminate.
  - destruct (collect _); simpl in Hj; [|discriminate].
    injection Hj as <-; discriminate.
  - destruct (collect _); simpl in Hj; [|discriminate].
    injection Hj as <-; discriminate.
  - destruct (collect _); simpl in Hj; [|discriminate].
    injection Hj as <-; discriminate.
Qed.

(** * Claims *)

(** ** C1 *)

(** C1 (as stated, refuted): the cleanup steps are total on every string.
    The one-byte string made of a lone double quote starts and ends with a
    double quote, so the quote strip slices [s[1..0]] and panics. *)
Lemma C1_cleanup_total_counterexample :
  ~ (forall s, exists d, cleanup s = Some d).
Proof.
  intro H; destruct (H (chr dquote)) as [d Hd]; vm_compute in Hd; discriminate.
Qed.

(** C1 (amended): the cleanup (quote strip, brace strip, substitution)
    fails on exactly one string, the lone double quote; in particular it
    succeeds on a lone opening brace and on every string serde_json
    writes. *)
Lemma C1_cleanup_total_except_lone_quote :
  (forall s, cleanup s = None <-> s = chr dquote) /\
  cleanup (chr lbrace) = Some (chr lbrace) /\
  (forall v j, serde_json_to_string v = Ok j -> exists d, cleanup j = Some d).
Proof.
  assert (Hiff : forall s, cleanup s = None <-> s = chr dquote).
  { intro s; split.
    - intro H; destruct (remove_surrounding_quotes_cases s) as [E|[t Ht]]; [exact E|].
      unfold cleanup, strip_surroundings in H; rewrite Ht in H.
      destruct (remove_surrounding_braces_total t) as [u Hu]; rewrite Hu in H; discriminate.
    - intros ->; vm_compute; reflexivity. }
  split; [exact Hiff|split; [vm_compute; reflexivity|]].
  intros v j Hj; destruct (cleanup j) as [d|] eqn:E; [exists d; reflexivity|].
  exfalso; apply (serde_json_not_lone_quote v j Hj); apply Hiff; exact E.
Qed.

Lemma C1_cleanup_total_except_lone_quote_witness :
  serde_json_to_string (serialize_ComplexEnum VariantA) = Ok (format_escaped_str "VariantA") /\
  exists d, cleanup (format_escaped_str "VariantA") = Some d.
Proof.
  split; [vm_compute; reflexivity|].
  apply (proj2 (proj2 C1_cleanup_total_except_lone_quote) (serialize_ComplexEnum VariantA)).
  vm_compute; reflexivity.
Defined.

(** ** C2 *)

(** C2 (as stated, refuted): for a value whose rendering is a quoted string,
    the text before substitution is the rendering without its first and last
    byte.  [ProductCode({x})] renders as a quoted string whose content is
    itself brace-wrapped, so the brace strip removes two more bytes. *)
Lemma C2_quote_strip_exact_counterexample :
  serde_json_to_string (serialize_ProductCode (MkProductCode "{x}"))
    = Ok (String dquote ("{x}" ++ chr dquote)) /\
  strip_surroundings (String dquote ("{x}" ++ chr dquote)) = Some "x" /\
  "x" <> "{x}".
Proof. vm_compute; repeat split; discriminate. Qed.

(** C2 (amended): the quote strip removes exactly the first and the last
    byte of a quoted rendering; when the unquoted content is not
    brace-wrapped this is the whole strip before substitution; when it is
    brace-wrapped the brace strip also removes its outer braces; and
    [ProductCode(example)] and [ProductCode()] display as [example] and the
    empty string. *)
Lemma C2_quote_strip_exact :
  (forall t, remove_surrounding_quotes (String dquote (t ++ chr dquote)) = Some t) /\
  (forall t, starts_with lbrace t && ends_with rbrace t = false ->
     strip_surroundings (String dquote (t ++ chr dquote)) = Some t) /\
  (forall t, starts_with lbrace t && ends_with rbrace t = true ->
     strip_surroundings (String dquote (t ++ chr dquote)) = Some (inner t)) /\
  snd (fmt_ProductCode (MkProductCode "example")) = Some (Ok "example") /\
  snd (fmt_ProductCode (MkProductCode "")) = Some (Ok "").
Proof.
  split; [exact remove_surrounding_quotes_wrapped|].
  split; [|split; [|vm_compute; split; reflexivity]].
  - intros t Ht; unfold strip_surroundings; rewrite remove_surrounding_quotes_wrapped.
    unfold remove_surrounding_braces; rewrite Ht; reflexivity.
  - intros t Ht; unfold strip_surroundings; rewrite remove_surrounding_quotes_wrapped.
    destruct (wrapped_shape lbrace rbrace t ltac:(discriminate) Ht) as [u ->].
    rewrite remove_surrounding_braces_wrapped, inner_wrapped; reflexivity.
Qed.

Lemma C2_quote_strip_exact_witness :
  (starts_with lbrace "example" && ends_with rbrace "example" = false /\
   strip_surroundings (String dquote ("example" ++ chr dquote)) = Some "example") /\
  (starts_with lbrace "{x}" && ends_with rbrace "{x}" = true /\
   strip_surroundings (String dquote ("{x}" ++ chr dquote)) = Some (inner "{x}")).
Proof.
  split; split.
  - vm_compute; reflexivity.
  - apply (proj1 (proj2 C2_quote_strip_exact)); vm_compute; reflexivity.
  - vm_compute; reflexivity.
  - apply (proj1 (proj2 (proj2 C2_quote_strip_exact))); vm_compute; reflexivity.
Defined.

(** ** C4 *)

(** C4: the brace strip removes exactly one outer layer of braces, and
    [VariantB { id: 42, name: test }] displays as
    [VariantB_{id_42,name_test}]. *)
Lemma C4_struct_variant_display :
  (forall t, remove_surrounding_braces (String lbrace (t ++ chr rbrace)) = Some t) /\
  snd (fmt_ComplexEnum (VariantB 42 "test")) = Some (Ok "VariantB_{id_42,name_test}").
Proof.
  split; [exact remove_surrounding_braces_wrapped|vm_compute; reflexivity].
Qed.

(** ** C5 *)

(** C5: a bracket-wrapped rendering passes both strips unchanged, and
    [VariantC([one, two])] displays as [VariantC_[one,two]]. *)
Lemma C5_brackets_never_stripped :
  (forall t, strip_surroundings (String lbracket (t ++ chr rbracket))
             = Some (String lbracket (t ++ chr rbracket))) /\
  snd (fmt_ComplexEnum (VariantC ["one"; "two"])) = Some (Ok "VariantC_[one,two]").
Proof.
  split; [|vm_compute; reflexivity].
  intro t; reflexivity.
Qed.

(** ** C6 *)

(** A map keyed by a sequence, which serde_json refuses to write. *)
Definition seq_keyed_map : serde_value := SMap [(SSeq [SInt 1], SInt 2)].

(** C6: when serialisation fails, [fmt] does no string processing: it
    writes the diagnostic line to stderr and returns [Err(fmt::Error)]. *)
Lemma C6_serialization_error_returned :
  forall (T E : Type) (type_name : string) (to_string : T -> result string E)
         (debug : E -> string) (self : T) (e : E),
  to_string self = Err e ->
  fmt type_name to_string debug self
    = ([unhandled_message E type_name debug e], Some (Err FmtError)).
Proof.
  intros T E type_name to_string debug self e He; unfold fmt; rewrite He; reflexivity.
Qed.

Lemma C6_serialization_error_returned_witness :
  serde_json_to_string seq_keyed_map = Err KeyMustBeAString /\
  fmt "Index" serde_json_to_string debug_json_error seq_keyed_map
    = ([unhandled_message json_error "Index" debug_json_error KeyMustBeAString],
       Some (Err FmtError)).
Proof.
  split; [vm_compute; reflexivity|].
  apply (C6_serialization_error_returned serde_value json_error "Index"
           serde_json_to_string debug_json_error seq_keyed_map KeyMustBeAString).
  vm_compute; reflexivity.
Defined.

(** ** C7 *)

(** C7: the two strips run one after the other on the same string: a
    quoted rendering whose content is brace-wrapped loses the quotes and
    then the braces, while a brace-wrapped rendering is left alone by the
    quote strip and loses its braces. *)
Lemma C7_strips_sequential :
  forall t, starts_with lbrace t && ends_with rbrace t = true ->
  strip_surroundings (String dquote (t ++ chr dquote)) = Some (inner t) /\
  remove_surrounding_quotes t = Some t /\
  strip_surroundings t = Some (inner t).
Proof.
  intros t Ht.
  destruct (wrapped_shape lbrace rbrace t ltac:(discriminate) Ht) as [u ->].
  rewrite inner_wrapped.
  unfold strip_surroundings; rewrite remove_surrounding_quotes_wrapped.
  rewrite remove_surrounding_braces_wrapped.
  assert (Hq : remove_surrounding_quotes (String lbrace (u ++ chr rbrace))
               = Some (String lbrace (u ++ chr rbrace))) by reflexivity.
  rewrite Hq, remove_surrounding_braces_wrapped; repeat split.
Qed.

Lemma C7_strips_sequential_witness :
  starts_with lbrace "{a:1}" && ends_with rbrace "{a:1}" = true /\
  strip_surroundings (String dquote ("{a:1}" ++ chr dquote)) = Some (inner "{a:1}").
Proof.
  split; [vm_compute; reflexivity|].
  apply (C7_strips_sequential "{a:1}"); vm_compute; reflexivity.
Defined.

(** ** C8 *)

(** C8: [fmt] depends on the value only through its serialisation: two
    values with the same serialisation (in particular two equal values)
    give the same stderr output and the same result. *)
Lemma C8_display_deterministic :
  forall (T E : Type) (type_name : string) (to_string : T -> result string E)
         (debug : E -> string) (v1 v2 : T),
  to_string v1 = to_string v2 ->
  fmt type_name to_string debug v1 = fmt type_name to_string debug v2.
Proof.
  intros T E type_name to_string debug v1 v2 H; unfold fmt; rewrite H; reflexivity.
Qed.

Lemma C8_display_deterministic_witness :
  fmt_ProductCode (MkProductCode "a b") = fmt_ProductCode (MkProductCode "a b").
Proof.
  apply (C8_display_deterministic ProductCode json_error "ProductCode"
           (fun p => serde_json_to_string (serialize_ProductCode p)) debug_json_error).
  reflexivity.
Defined.

(** ** C9 *)

(** C9: the substitution output contains no backslash, double quote, colon
    or space, and neither does any string [fmt] writes. *)
Lemma C9_no_special_characters :
  (forall s, no_special_characters (replace_special_characters s)) /\
  (forall (T E : Type) (type_name : string) (to_string : T -> result string E)
          (debug : E -> string) (self : T) (d : string),
     snd (fmt type_name to_string debug self) = Some (Ok d) ->
     no_special_characters d).
Proof.
  split; [exact replace_special_characters_clean|].
  intros T E type_name to_string debug self d H; unfold fmt in H.
  destruct (to_string self) as [s|e]; [|discriminate].
  unfold cleanup in H; destruct (strip_surroundings s) as [s2|]; [|discriminate].
  simpl in H; injection H as <-; apply replace_special_characters_clean.
Qed.

Lemma C9_no_special_characters_witness :
  snd (fmt_ProductCode (MkProductCode "a b:c")) = Some (Ok "a-b_c") /\
  no_special_characters "a-b_c".
Proof.
  split; [vm_compute; reflexivity|].
  apply (proj2 C9_no_special_characters ProductCode json_error "ProductCode"
           (fun p => serde_json_to_string (serialize_ProductCode p)) debug_json_error
           (MkProductCode "a b:c")).
  vm_compute; reflexivity.
Defined.

(** ** C10 *)

(** C10: the display is not injective: [ProductCode(a_b)] and
    [ProductCode(a:b)] differ and serialise differently, yet both display as
    [a_b]. *)
Lemma C10_display_not_injective :
  MkProductCode "a_b" <> MkProductCode "a:b" /\
  serde_json_to_string (serialize_ProductCode (MkProductCode "a_b"))
    <> serde_json_to_string (serialize_ProductCode (MkProductCode "a:b")) /\
  snd (fmt_ProductCode (MkProductCode "a_b")) = Some (Ok "a_b") /\
  snd (fmt_ProductCode (MkProductCode "a:b")) = Some (Ok "a_b").
Proof. vm_compute; repeat split; discriminate. Qed.

(** ** Further properties of the generated [fmt] *)

Lemma string_app_assoc : forall s t u : string, (s ++ t) ++ u = s ++ (t ++ u).
Proof. intros s t u; induction s as [|x s IH]; simpl; [reflexivity|]; rewrite IH; reflexivity. Qed.

Lemma string_app_nil_r : forall s : string, s ++ EmptyString = s.
Proof. intro s; induction s as [|x s IH]; simpl; [reflexivity|]; rewrite IH; reflexivity. Qed.

Lemma replace_app : forall c r s t, replace c r (s ++ t) = replace c r s ++ replace c r t.
Proof.
  intros c r s t; induction s as [|x s IH]; simpl; [reflexivity|].
  destruct (Ascii.eqb x c); rewrite IH; [symmetry; apply string_app_assoc|reflexivity].
Qed.

Lemma replace_special_characters_app : forall s t,
  replace_special_characters (s ++ t)
  = replace_special_characters s ++ replace_special_characters t.
Proof. intros s t; unfold replace_special_characters; rewrite !replace_app; reflexivity. Qed.

Lemma replace_absent : forall c r s, contains c s = false -> replace c r s = s.
Proof.
  intros c r s; induction s as [|x s IH]; simpl; [reflexivity|].
  intro H; apply orb_false_iff in H as [Hx Hs]; rewrite Hx, IH by exact Hs; reflexivity.
Qed.

Lemma replace_special_characters_absent : forall s,
  no_special_characters s -> replace_special_characters s = s.
Proof.
  intros s (H1 & H2 & H3 & H4); unfold replace_special_characters.
  rewrite (replace_absent backslash), (replace_absent dquote), (replace_absent colon),
    (replace_absent space) by assumption; reflexivity.
Qed.

Lemma concat_cons2 : forall sep x y l,
  String.concat sep (x :: y :: l) = x ++ sep ++ String.concat sep (y :: l).
Proof. reflexivity. Qed.

Lemma replace_special_characters_join : forall l,
  replace_special_characters (join l) = join (map replace_special_characters l).
Proof.
  unfold join; induction l as [|x l IH]; [reflexivity|].
  destruct l as [|y l]; [reflexivity|].
  cbn [map]; rewrite !concat_cons2, !replace_special_characters_app.
  cbn [map] in IH; rewrite IH; reflexivity.
Qed.

Lemma itoa_no_special : forall z, no_special_characters (itoa z).
Proof.
  assert (Hu : forall d, no_special_characters (NilEmpty.string_of_uint d)).
  { unfold no_special_characters; induction d; simpl; try exact IHd; repeat split. }
  intro z; unfold itoa, NilEmpty.string_of_int; destruct (Z.to_int z) as [d|d];
    [apply Hu|]; destruct (Hu d) as (H1 & H2 & H3 & H4); repeat split; assumption.
Qed.

Lemma fmt_ProductCode_eq : forall x,
  fmt_ProductCode (MkProductCode x) =
  ([], Some (Ok (replace_special_characters
     (if starts_with lbrace (escape_str x) && ends_with rbrace (escape_str x)
      then inner (escape_str x) else escape_str x)))).
Proof.
  intro x; unfold fmt_ProductCode, fmt; cbn [serialize_ProductCode serde_json_to_string].
  unfold cleanup, strip_surroundings, format_escaped_str.
  change (chr dquote ++ escape_str x ++ chr dquote) with (String dquote (escape_str x ++ chr dquote)).
  rewrite remove_surrounding_quotes_wrapped.
  destruct (starts_with lbrace (escape_str x) && ends_with rbrace (escape_str x)) eqn:H.
  - destruct (wrapped_shape lbrace rbrace _ ltac:(discriminate) H) as [u Hu].
    rewrite Hu, remove_surrounding_braces_wrapped, inner_wrapped; reflexivity.
  - unfold remove_surrounding_braces; rewrite H; reflexivity.
Qed.

Lemma serialize_VariantB_eq : forall id name,
  serde_json_to_string (serialize_ComplexEnum (VariantB id name))
  = Ok (String lbrace ((format_escaped_str "VariantB" ++ chr colon ++ chr lbrace
          ++ format_escaped_str "id" ++ chr colon ++ itoa id ++ chr comma
          ++ format_escaped_str "name" ++ chr colon ++ format_escaped_str name
          ++ chr rbrace) ++ chr rbrace)).
Proof.
  intros id name; cbn [serialize_ComplexEnum serde_json_to_string map fst snd collect entry map_ok].
  unfold join; rewrite concat_cons2; cbn [String.concat].
  f_equal; rewrite !string_app_assoc; reflexivity.
Qed.

Lemma fmt_VariantB_eq : forall id name,
  fmt_ComplexEnum (VariantB id name)
  = ([], Some (Ok ("VariantB_{id_" ++ itoa id ++ ",name_"
                   ++ replace_special_characters (escape_str name) ++ "}"))).
Proof.
  intros id name; unfold fmt_ComplexEnum, fmt; rewrite serialize_VariantB_eq.
  unfold cleanup, strip_surroundings.
  change (remove_surrounding_quotes (String lbrace ?t)) with (Some (String lbrace t)).
  cbv beta iota.
  rewrite remove_surrounding_braces_wrapped; unfold format_escaped_str.
  rewrite !replace_special_characters_app.
  rewrite (replace_special_characters_absent (itoa id)) by apply itoa_no_special.
  rewrite !string_app_assoc; reflexivity.
Qed.

Lemma collect_SStr : forall v,
  collect (map serde_json_to_string (map SStr v)) = Ok (map format_escaped_str v).
Proof. induction v as [|x v IH]; simpl; [reflexivity|]; rewrite IH; reflexivity. Qed.

Lemma serialize_VariantC_eq : forall v,
  serde_json_to_string (serialize_ComplexEnum (VariantC v))
  = Ok (String lbrace ((format_escaped_str "VariantC" ++ chr colon ++ chr lbracket
          ++ join (map format_escaped_str v) ++ chr rbracket) ++ chr rbrace)).
Proof.
  intro v; cbn [serialize_ComplexEnum serde_json_to_string].
  rewrite collect_SStr; cbn [map_ok].
  f_equal; rewrite !string_app_assoc; reflexivity.
Qed.

Lemma fmt_VariantC_eq : forall v,
  fmt_ComplexEnum (VariantC v)
  = ([], Some (Ok ("VariantC_[" ++ join (map (fun x => replace_special_characters (escape_str x)) v)
                   ++ "]"))).
Proof.
  intro v; unfold fmt_ComplexEnum, fmt; rewrite serialize_VariantC_eq.
  unfold cleanup, strip_surroundings.
  change (remove_surrounding_quotes (String lbrace ?t)) with (Some (String lbrace t)).
  cbv beta iota.
  rewrite remove_surrounding_braces_wrapped.
  rewrite !replace_special_characters_app, replace_special_characters_join, map_map.
  assert (Hm : map (fun x => replace_special_characters (format_escaped_str x)) v
               = map (fun x => replace_special_characters (escape_str x)) v).
  { apply map_ext; intro x; unfold format_escaped_str.
    rewrite !replace_special_characters_app; apply string_app_nil_r. }
  rewrite Hm; reflexivity.
Qed.

(** Every value of the three test types displays without error, panic or
    stderr output. *)
Lemma fmt_test_types_ok :
  (forall p, exists d, fmt_ProductCode p = ([], Some (Ok d))) /\
  (forall e, exists d, fmt_SimpleEnum e = ([], Some (Ok d))) /\
  (forall e, exists d, fmt_ComplexEnum e = ([], Some (Ok d))).
Proof.
  split; [|split].
  - intros [x]; eexists; apply fmt_ProductCode_eq.
  - intros []; eexists; vm_compute; reflexivity.
  - intros [|id name|v].
    + eexists; vm_compute; reflexivity.
    + eexists; apply fmt_VariantB_eq.
    + eexists; apply fmt_VariantC_eq.
Qed.

Lemma plain_char_spec : forall c, plain_char c = true ->
  32 <= nat_of_ascii c /\ Ascii.eqb c dquote = false /\ Ascii.eqb c backslash = false /\
  Ascii.eqb c colon = false /\ Ascii.eqb c space = false.
Proof.
  intros c H; unfold plain_char in H; apply andb_true_iff in H as [H1 H2].
  apply Nat.leb_le in H1; apply negb_true_iff in H2.
  apply orb_false_iff in H2 as [H2 H5]; apply orb_false_iff in H2 as [H2 H4];
    apply orb_false_iff in H2 as [H2 H3]; repeat split; assumption.
Qed.

Lemma escape_str_plain : forall s, plain s = true -> escape_str s = s.
Proof.
  induction s as [|c s IH]; simpl; [reflexivity|].
  intro H; apply andb_true_iff in H as [Hc Hs].
  destruct (plain_char_spec c Hc) as (Hn & Hq & Hb & _ & _).
  unfold escape_char; rewrite Hq, Hb.
  rewrite (proj2 (Nat.eqb_neq _ 8)), (proj2 (Nat.eqb_neq _ 9)), (proj2 (Nat.eqb_neq _ 10)),
    (proj2 (Nat.eqb_neq _ 12)), (proj2 (Nat.eqb_neq _ 13)) by lia.
  rewrite (proj2 (Nat.ltb_ge _ 32)) by lia.
  rewrite IH by exact Hs; reflexivity.
Qed.

Lemma plain_no_special : forall s, plain s = true -> no_special_characters s.
Proof.
  unfold no_special_characters; induction s as [|c s IH]; simpl; [repeat split|].
  intro H; apply andb_true_iff in H as [Hc Hs].
  destruct (plain_char_spec c Hc) as (_ & Hq & Hb & Hco & Hsp).
  destruct (IH Hs) as (H1 & H2 & H3 & H4).
  rewrite Hq, Hb, Hco, Hsp, H1, H2, H3, H4; repeat split.
Qed.

Lemma length_replace_chr : forall c d s,
  String.length (replace c (chr d) s) = String.length s.
Proof.
  intros c d s; induction s as [|x s IH]; simpl; [reflexivity|].
  destruct (Ascii.eqb x c); simpl; rewrite IH; reflexivity.
Qed.

Lemma count_replace_other : forall c d e s,
  Ascii.eqb c e = false -> Ascii.eqb d e = false ->
  count_char e (replace c (chr d) s) = count_char e s.
Proof.
  intros c d e s Hc Hd; induction s as [|x s IH]; simpl; [reflexivity|].
  destruct (Ascii.eqb x c) eqn:Hx; simpl.
  - apply Ascii.eqb_eq in Hx; subst x; rewrite Hd, Hc, IH; reflexivity.
  - rewrite IH; reflexivity.
Qed.

Lemma length_replace_delete : forall c s,
  String.length (replace c EmptyString s) + count_char c s = String.length s.
Proof.
  intros c s; induction s as [|x s IH]; simpl; [reflexivity|].
  destruct (Ascii.eqb x c); simpl; lia.
Qed.

(** Display of [ProductCode(x)]: no stderr output, no error, and the text
    is serde_json's escaping of [x], with one pair of outer braces removed
    when that escaping is brace-wrapped, after the substitution. *)
Theorem ProductCode_display_formula : forall x,
  fmt_ProductCode (MkProductCode x) =
  ([], Some (Ok (replace_special_characters
     (if starts_with lbrace (escape_str x) && ends_with rbrace (escape_str x)
      then inner (escape_str x) else escape_str x)))).
Proof. exact fmt_ProductCode_eq. Qed.

(** Display of [VariantB { id, name }] for every [id] and [name]. *)
Theorem VariantB_display_formula : forall id name,
  fmt_ComplexEnum (VariantB id name)
  = ([], Some (Ok ("VariantB_{id_" ++ itoa id ++ ",name_"
                   ++ replace_special_characters (escape_str name) ++ "}"))).
Proof. exact fmt_VariantB_eq. Qed.

(** Display of [VariantC(v)] for every vector [v]: the brackets and commas
    stay, each element is escaped and substituted on its own. *)
Theorem VariantC_display_formula : forall v,
  fmt_ComplexEnum (VariantC v)
  = ([], Some (Ok ("VariantC_[" ++ join (map (fun x => replace_special_characters (escape_str x)) v)
                   ++ "]"))).
Proof. exact fmt_VariantC_eq. Qed.

(** A [ProductCode] whose string has only printable bytes other than
    backslash, double quote, colon and space, and is not brace-wrapped,
    displays as itself. *)
Theorem ProductCode_plain_verbatim : forall x,
  plain x = true -> starts_with lbrace x && ends_with rbrace x = false ->
  fmt_ProductCode (MkProductCode x) = ([], Some (Ok x)).
Proof.
  intros x Hp Hb; rewrite fmt_ProductCode_eq, (escape_str_plain x Hp), Hb.
  rewrite replace_special_characters_absent by (apply plain_no_special; exact Hp).
  reflexivity.
Qed.

Lemma ProductCode_plain_verbatim_witness :
  plain "item-42_a" = true /\ starts_with lbrace "item-42_a" && ends_with rbrace "item-42_a" = false /\
  fmt_ProductCode (MkProductCode "item-42_a") = ([], Some (Ok "item-42_a")).
Proof.
  split; [vm_compute; reflexivity|split; [vm_compute; reflexivity|]].
  apply ProductCode_plain_verbatim; vm_compute; reflexivity.
Defined.

(** The substitution deletes exactly the double quotes and keeps the length
    otherwise: its output is shorter than its input by the number of double
    quotes. *)
Theorem replace_special_characters_length : forall s,
  String.length (replace_special_characters s) + count_char dquote s = String.length s.
Proof.
  intro s; unfold replace_special_characters; rewrite !length_replace_chr.
  rewrite <- (count_replace_other backslash tilde dquote s) by reflexivity.
  rewrite length_replace_delete, length_replace_chr; reflexivity.
Qed.

(** The substitution leaves a string unchanged exactly when it has no
    backslash, double quote, colon or space; hence applying it twice is the
    same as once. *)
Theorem replace_special_characters_fixpoint :
  (forall s, replace_special_characters s = s <-> no_special_characters s) /\
  (forall s, replace_special_characters (replace_special_characters s)
             = replace_special_characters s).
Proof.
  split.
  - intro s; split; [intro H; rewrite <- H; apply replace_special_characters_clean|].
    apply replace_special_characters_absent.
  - intro s; apply replace_special_characters_absent, replace_special_characters_clean.
Qed.

(** The two strips remove nothing, one pair of quotes, one pair of braces,
    or quotes and then braces inside them; nothing else. *)
Theorem strip_surroundings_shape : forall s t,
  strip_surroundings s = Some t ->
  s = t \/ s = String dquote (t ++ chr dquote) \/ s = String lbrace (t ++ chr rbrace) \/
  s = String dquote (String lbrace (t ++ chr rbrace) ++ chr dquote).
Proof.
  intros s t H; unfold strip_surroundings in H.
  assert (Hb : forall w, remove_surrounding_braces w = Some t ->
                         w = t \/ w = String lbrace (t ++ chr rbrace)).
  { intros w Hw; destruct (starts_with lbrace w && ends_with rbrace w) eqn:E.
    - destruct (wrapped_shape lbrace rbrace w ltac:(discriminate) E) as [u ->].
      rewrite remove_surrounding_braces_wrapped in Hw; injection Hw as ->; right; reflexivity.
    - unfold remove_surrounding_braces in Hw; rewrite E in Hw; injection Hw as ->; left; reflexivity. }
  destruct (starts_with dquote s && ends_with dquote s) eqn:Q.
  - destruct s as [|x r]; [discriminate|].
    apply andb_true_iff in Q as [Qx Qe]; simpl in Qx; apply Ascii.eqb_eq in Qx; subst x.
    destruct r as [|y r]; [vm_compute in H; discriminate|].
    destruct (ends_with_shape dquote (String y r) Qe) as [w Hw]; rewrite Hw in *.
    rewrite remove_surrounding_quotes_wrapped in H.
    destruct (Hb w H) as [->| ->]; [right; left; reflexivity|right; right; right; reflexivity].
  - unfold remove_surrounding_quotes in H; rewrite Q in H.
    destruct (Hb s H) as [->| ->]; [left; reflexivity|right; right; left; reflexivity].
Qed.

Lemma strip_surroundings_shape_witness :
  strip_surroundings (String dquote ("{a:1}" ++ chr dquote)) = Some "a:1" /\
  (String dquote ("{a:1}" ++ chr dquote) = "a:1" \/
   String dquote ("{a:1}" ++ chr dquote) = String dquote ("a:1" ++ chr dquote) \/
   String dquote ("{a:1}" ++ chr dquote) = String lbrace ("a:1" ++ chr rbrace) \/
   String dquote ("{a:1}" ++ chr dquote)
     = String dquote (String lbrace ("a:1" ++ chr rbrace) ++ chr dquote)).
Proof.
  split; [vm_compute; reflexivity|].
  apply strip_surroundings_shape; vm_compute; reflexivity.
Defined.

(** Distinct [SimpleEnum] variants display differently (the renaming keeps
    the three tags apart). *)
Theorem SimpleEnum_display_injective : forall a b,
  display_to_string fmt_SimpleEnum a = display_to_string fmt_SimpleEnum b -> a = b.
Proof. intros [] [] H; vm_compute in H; congruence. Qed.

Lemma SimpleEnum_display_injective_witness :
  display_to_string fmt_SimpleEnum ValueTwo = display_to_string fmt_SimpleEnum ValueTwo /\
  ValueTwo = ValueTwo.
Proof. split; [reflexivity|]. apply SimpleEnum_display_injective; reflexivity. Defined.

Lemma escape_str_app : forall s t, escape_str (s ++ t) = escape_str s ++ escape_str t.
Proof.
  intros s t; induction s as [|c s IH]; simpl; [reflexivity|].
  rewrite IH, string_app_assoc; reflexivity.
Qed.

(** ** C3 *)

(** C3: the substitutions run over the whole string in the order backslash,
    double quote, colon, space, so the escape serde_json writes for a double
    quote embedded in a string, a backslash and then the quote, becomes one
    tilde: for every [a] and [b], the escaping of [a], double quote, [b]
    substitutes to that of [a], a tilde, that of [b]; a [ProductCode]
    holding such a string displays that way (when its escaping is not
    brace-wrapped); and [ProductCode(ex, double quote, ample)] is written
    with a backslash before the inner quote and displays as [ex~ample]. *)
Lemma C3_escaped_quote_becomes_tilde :
  (forall a b,
     replace_special_characters (escape_str (a ++ chr dquote ++ b))
     = replace_special_characters (escape_str a) ++ chr tilde
       ++ replace_special_characters (escape_str b)) /\
  (forall a b,
     starts_with lbrace (escape_str (a ++ chr dquote ++ b))
       && ends_with rbrace (escape_str (a ++ chr dquote ++ b)) = false ->
     fmt_ProductCode (MkProductCode (a ++ chr dquote ++ b))
     = ([], Some (Ok (replace_special_characters (escape_str a) ++ chr tilde
                      ++ replace_special_characters (escape_str b))))) /\
  serde_json_to_string (serialize_ProductCode (MkProductCode ex_quote_ample))
    = Ok (String dquote ("ex" ++ String backslash (String dquote "ample") ++ chr dquote)) /\
  snd (fmt_ProductCode (MkProductCode ex_quote_ample)) = Some (Ok "ex~ample").
Proof.
  assert (Hq : forall a b,
     replace_special_characters (escape_str (a ++ chr dquote ++ b))
     = replace_special_characters (escape_str a) ++ chr tilde
       ++ replace_special_characters (escape_str b)).
  { intros a b; rewrite !escape_str_app, !replace_special_characters_app; reflexivity. }
  split; [exact Hq|split; [|vm_compute; split; reflexivity]].
  intros a b H; rewrite fmt_ProductCode_eq, H, Hq; reflexivity.
Qed.

Lemma C3_escaped_quote_becomes_tilde_witness :
  starts_with lbrace (escape_str ("ex" ++ chr dquote ++ "ample"))
    && ends_with rbrace (escape_str ("ex" ++ chr dquote ++ "ample")) = false /\
  fmt_ProductCode (MkProductCode ("ex" ++ chr dquote ++ "ample"))
    = ([], Some (Ok (replace_special_characters (escape_str "ex") ++ chr tilde
                     ++ replace_special_characters (escape_str "ample")))).
Proof.
  split; [vm_compute; reflexivity|].
  apply (proj1 (proj2 C3_escaped_quote_becomes_tilde)); vm_compute; reflexivity.
Defined.
